(** * document_portal: the [DocumentAnalyzer] of
    [src/document_analyzer/data_analysis.py]

    A shallow embedding of the two methods of [DocumentAnalyzer]
    ([__init__] and [analyze_document]) as programs of a state-and-exception
    monad, together with the collaborators they call.  The state holds the
    attributes of the analyzer instance, the events accepted by the global
    logger and the prompts sent to the language model. *)

From Stdlib Require Import ZArith Lia Ascii String.
From stdpp Require Import base option list strings gmap.

Set Warnings "-register-all".
Local Open Scope string_scope.
Local Open Scope list_scope.

(** ** Python values and exceptions *)

(** What the JSON decoder hands back, as Python objects.  A [dict] keeps its
    items in insertion order, which is the order [keys()] lists them in. *)
Inductive pyval : Type :=
| PNone
| PBool (b : bool)
| PInt (z : Z)
| PStr (s : string)
| PList (elems : list pyval)
| PDict (items : list (string * pyval)).

(** The Python name of the type of a value, as it appears in messages. *)
Definition type_name (v : pyval) : string :=
  match v with
  | PNone => "NoneType"
  | PBool _ => "bool"
  | PInt _ => "int"
  | PStr _ => "str"
  | PList _ => "list"
  | PDict _ => "dict"
  end.

Inductive ExnClass : Type :=
| KeyError
| AttributeError
| OutputParserException
| DocumentPortalException
| OtherException (name : string).

Global Instance ExnClass_eq_dec : EqDecision ExnClass.
Proof. solve_decision. Defined.

(** An exception object: its class, its message, the [llm_output] that an
    [OutputParserException] carries, and [__context__], the exception that
    was being handled when this one was raised. *)
Inductive Exn : Type :=
  MkExn {
    exn_class : ExnClass;
    exn_message : string;
    exn_llm_output : option string;
    exn_context : option Exn
  }.

(** *** Python strings

    A string is the sequence of the bytes of its UTF-8 encoding. *)

Definition bytes (codes : list nat) : list ascii := ascii_of_nat <$> codes.

(** The characters for which [str.isspace()] holds: the ASCII controls
    9 to 13 and 28 to 31, the space, and U+0085, U+00A0, U+1680, U+2000 to
    U+200A, U+2028, U+2029, U+202F, U+205F and U+3000 in their encodings. *)
Definition whitespace : list (list ascii) :=
  bytes <$>
    [ [9]; [10]; [11]; [12]; [13]; [28]; [29]; [30]; [31]; [32];
      [194; 133]; [194; 160]; [225; 154; 128];
      [226; 128; 128]; [226; 128; 129]; [226; 128; 130]; [226; 128; 131];
      [226; 128; 132]; [226; 128; 133]; [226; 128; 134]; [226; 128; 135];
      [226; 128; 136]; [226; 128; 137]; [226; 128; 138];
      [226; 128; 168]; [226; 128; 169]; [226; 128; 175];
      [226; 129; 159]; [227; 128; 128] ].

(** What is left of [l] after one of the [patterns] at its head. *)
Definition behead (patterns : list (list ascii)) (l : list ascii)
  : option (list ascii) :=
  drop_pattern ← list_find (fun pat => bool_decide (take (length pat) l = pat))
                   patterns;
  Some (drop (length drop_pattern.2) l).

(** Leading occurrences of the patterns are dropped; each turn drops at
    least one byte, so [length l] turns are enough. *)
Fixpoint lstrip_bytes (fuel : nat) (patterns : list (list ascii))
    (l : list ascii) : list ascii :=
  match fuel with
  | O => l
  | S fuel' =>
      match behead patterns l with
      | Some rest => lstrip_bytes fuel' patterns rest
      | None => l
      end
  end.

(** [s.strip()] *)
Definition py_strip (s : string) : string :=
  let l := list_ascii_of_string s in
  let l1 := lstrip_bytes (length l) whitespace l in
  let l2 := lstrip_bytes (length l1) (reverse <$> whitespace) (reverse l1) in
  string_of_list_ascii (reverse l2).

Definition hex_digit (n : nat) : ascii :=
  nth n (list_ascii_of_string "0123456789abcdef") "0"%char.

(** One character of [repr] of a string delimited by [quote]. *)
Definition repr_char (quote c : ascii) : list ascii :=
  let n := nat_of_ascii c in
  let backslash := "092"%char in
  if bool_decide (c = quote) || bool_decide (c = backslash)
  then [backslash; c]
  else if bool_decide (n = 9) then [backslash; "t"%char]
  else if bool_decide (n = 10) then [backslash; "n"%char]
  else if bool_decide (n = 13) then [backslash; "r"%char]
  else if bool_decide (n < 32)%nat || bool_decide (n = 127)
  then [backslash; "x"%char; hex_digit (n / 16); hex_digit (n mod 16)]
  else [c].

(** [repr(s)] of a string: apostrophes around it, quotation marks when it
    holds an apostrophe and no quotation mark; the delimiter, the backslash
    and the ASCII controls are escaped.  Characters beyond ASCII are taken
    to be printable. *)
Definition py_repr (s : string) : string :=
  let l := list_ascii_of_string s in
  let apostrophe := "039"%char in
  let quotation := "034"%char in
  let quote :=
    if bool_decide (apostrophe ∈ l) && negb (bool_decide (quotation ∈ l))
    then quotation else apostrophe in
  string_of_list_ascii (quote :: mjoin (repr_char quote <$> l) ++ [quote]).

(** [str(e)].  A [KeyError] holds the missing key and prints its [repr];
    the other errors print their message. *)
Definition str_exn (e : Exn) : string :=
  match exn_class e with
  | KeyError => py_repr (exn_message e)
  | _ => exn_message e
  end.

(** Raising [x] while [e] is being handled: Python stores [e] in
    [x.__context__], in place of any context [x] had. *)
Definition chain_context (e x : Exn) : Exn :=
  MkExn (exn_class x) (exn_message x) (exn_llm_output x) (Some e).

Inductive Outcome (A : Type) : Type :=
| Return (a : A)
| Raise (e : Exn).
Arguments Return {A} a.
Arguments Raise {A} e.

Definition returned {A} (o : Outcome A) : bool :=
  match o with Return _ => true | Raise _ => false end.

(** ** The schema ([model.models.Metadata]) *)

Inductive FieldType : Type :=
| TString
| TInteger
| TSequence (elem : FieldType).

Record Field := {
  field_name : string;
  field_type : FieldType;
  field_required : bool
}.

Definition Schema := list Field.

(** ** Prompt templates ([prompt.prompt_library]) *)

Inductive Piece : Type :=
| Lit (text : string)
| Var (name : string).

Definition PromptTemplate := list Piece.


(** Modelled from the spec: the rendering function of a prompt template
    (the template objects live in [prompt/prompt_library.py], outside this
    file): every placeholder must be supplied or rendering fails; the
    failure is the [KeyError] the spec calls TemplateError. *)
Fixpoint format_prompt (t : PromptTemplate) (inputs : gmap string string)
  : Outcome string :=
  match t with
  | [] => Return ""
  | Lit s :: t' =>
      match format_prompt t' inputs with
      | Return r => Return (s +:+ r)
      | Raise e => Raise e
      end
  | Var x :: t' =>
      match inputs !! x with
      | None => Raise (MkExn KeyError x None None)
      | Some v =>
          match format_prompt t' inputs with
          | Return r => Return (v +:+ r)
          | Raise e => Raise e
          end
      end
  end.

(** ** Collaborators *)

Inductive Level := INFO | ERROR.

Record LogEvent := {
  ev_level : Level;
  ev_message : string;
  ev_payload : list (string * pyval)
}.

(** The global logger.  A call either appends the event to what was logged
    so far or raises; which of the two may depend on the history. *)
Record Logger := {
  log_fault : list LogEvent -> LogEvent -> option Exn
}.

(** The language model handle.  One invocation maps the prompt to a raw
    completion or raises; the answer may depend on the prompts already
    served. *)
Record LLM := {
  generate : list string -> string -> Outcome string
}.

Record ModelLoader := {
  load_llm : Outcome LLM
}.

Record JsonOutputParser := {
  pydantic_object : Schema
}.

Record OutputFixingParser := {
  fp_parser : JsonOutputParser;
  fp_llm : LLM;
  fp_prompt : PromptTemplate;
  max_retries : nat
}.

(** The names the module imports. *)
Record Env := {
  ModelLoader_new : Outcome ModelLoader;
  Metadata : Schema;
  PROMPT_REGISTRY : gmap string PromptTemplate;
  GLOBAL_LOGGER : Logger;
  (** JSON decoding of a completion, [None] when the text is not JSON *)
  json_decode : string -> option pyval;
  (** the schema-instruction deriver behind [get_format_instructions] *)
  schema_instructions : Schema -> string;
  (** the default of [OutputFixingParser.from_llm(max_retries=...)] *)
  default_max_retries : nat;
  (** the note the installed release of langchain_core appends to the
      message of an [OutputParserException] (none in earlier releases) *)
  troubleshooting : string;
  (** a constructor of a parser that cannot be set up raises *)
  JsonOutputParser_fault : option Exn;
  from_llm_fault : option Exn
}.

(** ** The instance and the state *)

Record DocumentAnalyzer := {
  loader : option ModelLoader;
  llm : option LLM;
  parser : option JsonOutputParser;
  fixing_parser : option OutputFixingParser;
  prompt : option PromptTemplate
}.

Definition blank : DocumentAnalyzer :=
  {| loader := None; llm := None; parser := None;
     fixing_parser := None; prompt := None |}.

Record State := {
  self : DocumentAnalyzer;
  log : list LogEvent;
  prompts : list string
}.

Definition M (A : Type) : Type := State -> Outcome A * State.

Global Instance M_ret : MRet M := fun A a st => (Return a, st).
Global Instance M_bind : MBind M := fun A B f m st =>
  match m st with
  | (Return a, st') => f a st'
  | (Raise e, st') => (Raise e, st')
  end.

Definition raise {A} (e : Exn) : M A := fun st => (Raise e, st).

Definition lift {A} (o : Outcome A) : M A := fun st => (o, st).

(** [try: body except Exception as e: handler e].  Every error of the
    model is an [Exception], so the handler takes them all; an exception
    that leaves the handler has [e] as its context. *)
Definition try_except {A} (body : M A) (handler : Exn -> M A) : M A :=
  fun st =>
    match body st with
    | (Return a, st') => (Return a, st')
    | (Raise e, st') =>
        match handler e st' with
        | (Return a, st'') => (Return a, st'')
        | (Raise x, st'') => (Raise (chain_context e x), st'')
        end
    end.

(** [OutputParserException(f"Invalid json output: {text}", llm_output=text)],
    built by the parser on the stripped text. *)
Definition invalid_json (env : Env) (text : string) : Exn :=
  MkExn OutputParserException
    ("Invalid json output: " +:+ text +:+ troubleshooting env) (Some text) None.

(** ** The program *)

Section Program.

Context (env : Env).

(** *** Attribute reads and writes on [self] *)

Definition no_attribute {A} (name : string) : M A :=
  raise (MkExn AttributeError
           ("'DocumentAnalyzer' object has no attribute '" +:+ name +:+ "'")
           None None).

Definition getattr {A} (proj : DocumentAnalyzer -> option A) (name : string)
  : M A :=
  fun st =>
    match proj (self st) with
    | Some v => (Return v, st)
    | None => no_attribute name st
    end.

Definition update_self (f : DocumentAnalyzer -> DocumentAnalyzer) : M unit :=
  fun st =>
    (Return tt, {| self := f (self st); log := log st; prompts := prompts st |}).

Definition set_loader (v : ModelLoader) : M unit :=
  update_self (fun o =>
    {| loader := Some v; llm := llm o; parser := parser o;
       fixing_parser := fixing_parser o; prompt := prompt o |}).

Definition set_llm (v : LLM) : M unit :=
  update_self (fun o =>
    {| loader := loader o; llm := Some v; parser := parser o;
       fixing_parser := fixing_parser o; prompt := prompt o |}).

Definition set_parser (v : JsonOutputParser) : M unit :=
  update_self (fun o =>
    {| loader := loader o; llm := llm o; parser := Some v;
       fixing_parser := fixing_parser o; prompt := prompt o |}).

Definition set_fixing_parser (v : OutputFixingParser) : M unit :=
  update_self (fun o =>
    {| loader := loader o; llm := llm o; parser := parser o;
       fixing_parser := Some v; prompt := prompt o |}).

Definition set_prompt (v : PromptTemplate) : M unit :=
  update_self (fun o =>
    {| loader := loader o; llm := llm o; parser := parser o;
       fixing_parser := fixing_parser o; prompt := Some v |}).

(** *** Logging *)

(** [log.info(...)] and [log.error(...)]: the logger takes the event or
    raises. *)
Definition emit (ev : LogEvent) : M unit :=
  fun st =>
    match log_fault (GLOBAL_LOGGER env) (log st) ev with
    | Some e => (Raise e, st)
    | None =>
        (Return tt,
         {| self := self st; log := log st ++ [ev]; prompts := prompts st |})
    end.


(** *** The language model *)

(** [llm.invoke(prompt)]: the prompt is served, answered or not. *)
Definition invoke_llm (l : LLM) (p : string) : M string :=
  fun st =>
    (generate l (prompts st) p,
     {| self := self st; log := log st; prompts := prompts st ++ [p] |}).

(** *** [JsonOutputParser] *)

Definition JsonOutputParser_new (schema : Schema) : Outcome JsonOutputParser :=
  match JsonOutputParser_fault env with
  | Some e => Raise e
  | None => Return {| pydantic_object := schema |}
  end.

Definition get_format_instructions (p : JsonOutputParser) : string :=
  schema_instructions env (pydantic_object p).

(** [JsonOutputParser.parse] of langchain_core: the completion is stripped
    and decoded, and the decoded JSON value is returned as it is;
    [pydantic_object] serves the format instructions only.  Stripped text
    that does not decode raises an [OutputParserException] carrying it (the
    decoder's own error, its cause, is left out). *)
Definition JsonOutputParser_parse (p : JsonOutputParser) (completion : string)
  : Outcome pyval :=
  let text := py_strip completion in
  match json_decode env text with
  | Some v => Return v
  | None => Raise (invalid_json env text)
  end.

(** *** [OutputFixingParser] *)

Definition line (s : string) : string := s +:+ String "010"%char "".

(** The repair template of langchain ([NAIVE_FIX]), line by line. *)
Definition NAIVE_FIX_PROMPT : PromptTemplate :=
  [ Lit (line "Instructions:" +:+ line "--------------");
    Var "instructions";
    Lit (line "" +:+ line "--------------" +:+ line "Completion:" +:+
         line "--------------");
    Var "completion";
    Lit (line "" +:+ line "--------------" +:+ line "" +:+
         line "Above, the Completion did not satisfy the constraints given in the Instructions." +:+
         line "Error:" +:+ line "--------------");
    Var "error";
    Lit (line "" +:+ line "--------------" +:+ line "" +:+
         "Please try again. Please only respond with an answer that satisfies the constraints laid out in the Instructions:") ].

Definition OutputFixingParser_from_llm (p : JsonOutputParser) (l : LLM)
  : Outcome OutputFixingParser :=
  match from_llm_fault env with
  | Some e => Raise e
  | None =>
      Return {| fp_parser := p; fp_llm := l; fp_prompt := NAIVE_FIX_PROMPT;
                max_retries := default_max_retries env |}
  end.

(** [repr(e)] of a parser error, as the repair prompt quotes it. *)
Definition repr_exn (e : Exn) : string :=
  "OutputParserException(" +:+ py_repr (exn_message e) +:+ ")".

(** [retry_chain.invoke(dict(instructions=..., completion=..., error=...))]:
    the repair prompt is rendered and sent to the model. *)
Definition retry_chain_invoke (fp : OutputFixingParser) (completion : string)
    (e : Exn) : M string :=
  p ← lift (format_prompt (fp_prompt fp)
              (<["instructions" := get_format_instructions (fp_parser fp)]>
               (<["completion" := completion]>
                {["error" := repr_exn e]})));
  invoke_llm (fp_llm fp) p.

(** The loop of [OutputFixingParser.parse] of langchain:
    [while retries <= max_retries], written on the retries that remain,
    [max_retries - retries].  A parse error with retries left sends the
    repair prompt and parses the answer; with none left it is re-raised.
    Only [OutputParserException] is caught.  Left out: what happens to an
    error of the generator during a repair (the parse error becomes its
    context, and a [NotImplementedError] or [AttributeError] makes the
    library try the retry chain once more without instructions). *)
Fixpoint fix_loop (fp : OutputFixingParser) (remaining : nat)
    (completion : string) : M pyval :=
  match JsonOutputParser_parse (fp_parser fp) completion with
  | Return v => mret v
  | Raise e =>
      if decide (exn_class e = OutputParserException) then
        match remaining with
        | O => raise e
        | S remaining' =>
            completion' ← retry_chain_invoke fp completion e;
            fix_loop fp remaining' completion'
        end
      else raise e
  end.

Definition OutputFixingParser_parse (fp : OutputFixingParser)
    (completion : string) : M pyval :=
  fix_loop fp (max_retries fp) completion.

(** *** The chain [prompt | llm | fixing_parser] *)

Record Chain := {
  chain_prompt : PromptTemplate;
  chain_llm : LLM;
  chain_parser : OutputFixingParser
}.

Definition chain_invoke (c : Chain) (inputs : gmap string string) : M pyval :=
  p ← lift (format_prompt (chain_prompt c) inputs);
  completion ← invoke_llm (chain_llm c) p;
  OutputFixingParser_parse (chain_parser c) completion.

(** *** Python built-ins used by the methods *)

(** [list(response.keys())] *)
Definition no_keys (v : pyval) : Exn :=
  MkExn AttributeError
    ("'" +:+ type_name v +:+ "' object has no attribute 'keys'") None None.

Definition py_keys (v : pyval) : Outcome (list string) :=
  match v with
  | PDict items => Return (items.*1)
  | _ => Raise (no_keys v)
  end.

(** [d[k]] on a dictionary *)
Definition getitem {A} (d : gmap string A) (k : string) : Outcome A :=
  match d !! k with
  | Some v => Return v
  | None => Raise (MkExn KeyError k None None)
  end.

(** [DocumentPortalException(message, sys)] *)
Definition DocumentPortalException_new (message : string) : Exn :=
  MkExn DocumentPortalException message None None.

(** *** [DocumentAnalyzer.__init__] *)

(** [log.info("DocumentAnalyzer initialized successfully")] and
    [log.error(f"Error initializing DocumentAnalyzer: {e}")] *)
Definition initialized_event : LogEvent :=
  {| ev_level := INFO; ev_message := "DocumentAnalyzer initialized successfully";
     ev_payload := [] |}.

Definition init_failure_event (e : Exn) : LogEvent :=
  {| ev_level := ERROR;
     ev_message := "Error initializing DocumentAnalyzer: " +:+ str_exn e;
     ev_payload := [] |}.

Definition init_body : M unit :=
  ld ← lift (ModelLoader_new env);
  set_loader ld;;
  ld' ← getattr loader "loader";
  l ← lift (load_llm ld');
  set_llm l;;
  p ← lift (JsonOutputParser_new (Metadata env));
  set_parser p;;
  p' ← getattr parser "parser";
  l' ← getattr llm "llm";
  fp ← lift (OutputFixingParser_from_llm p' l');
  set_fixing_parser fp;;
  t ← lift (getitem (PROMPT_REGISTRY env) "document_analysis");
  set_prompt t;;
  emit initialized_event.

Definition init_handler (e : Exn) : M unit :=
  emit (init_failure_event e);;
  raise (DocumentPortalException_new "Error in DocumentAnalyzer initialization").

Definition __init__ : M unit := try_except init_body init_handler.

(** [DocumentAnalyzer()]: [__init__] runs on a fresh object; the caller
    receives the object only when [__init__] returns. *)
Definition DocumentAnalyzer_new (st : State) : Outcome DocumentAnalyzer * State :=
  match __init__ {| self := blank; log := log st; prompts := prompts st |} with
  | (Return _, st') => (Return (self st'), st')
  | (Raise e, st') => (Raise e, st')
  end.

(** *** [DocumentAnalyzer.analyze_document] *)

Definition make_inputs (format_instructions document_text : string)
  : gmap string string :=
  <["format_instructions" := format_instructions]>
    {["document_text" := document_text]}.

(** The events of [analyze_document]: [log.info("Meta-data analysis chain
    initialized")], [log.info("Metadata extraction successful", keys=...)]
    and [log.error("Metadata analysis failed", error=str(e))]. *)
Definition started_event : LogEvent :=
  {| ev_level := INFO; ev_message := "Meta-data analysis chain initialized";
     ev_payload := [] |}.

Definition success_event (keys : list string) : LogEvent :=
  {| ev_level := INFO; ev_message := "Metadata extraction successful";
     ev_payload := [("keys", PList (PStr <$> keys))] |}.

Definition failure_event (e : Exn) : LogEvent :=
  {| ev_level := ERROR; ev_message := "Metadata analysis failed";
     ev_payload := [("error", PStr (str_exn e))] |}.

(** The statements of the [try] block up to [chain.invoke(...)], whose
    value is bound to [response]. *)
Definition run_chain (document_text : string) : M pyval :=
  t ← getattr prompt "prompt";
  l ← getattr llm "llm";
  fp ← getattr fixing_parser "fixing_parser";
  let chain := {| chain_prompt := t; chain_llm := l; chain_parser := fp |} in
  emit started_event;;
  p ← getattr parser "parser";
  chain_invoke chain (make_inputs (get_format_instructions p) document_text).

Definition analyze_body (document_text : string) : M pyval :=
  response ← run_chain document_text;
  keys ← lift (py_keys response);
  emit (success_event keys);;
  mret response.

Definition analyze_handler (e : Exn) : M pyval :=
  emit (failure_event e);;
  raise (DocumentPortalException_new "Metadata extraction failed").

Definition analyze_document (document_text : string) : M pyval :=
  try_except (analyze_body document_text) analyze_handler.

End Program.

(** ** The specification's vocabulary

    These follow the words of the specification, to be compared with what
    the program returns. *)

(** A value has the declared type of a field. *)
Fixpoint has_type (t : FieldType) (v : pyval) : bool :=
  match t, v with
  | TString, PStr _ => true
  | TInteger, PInt _ => true
  | TSequence t', PList elems => forallb (has_type t') elems
  | _, _ => false
  end.

Fixpoint dict_get (k : string) (items : list (string * pyval)) : option pyval :=
  match items with
  | [] => None
  | (k', x) :: items' => if decide (k' = k) then Some x else dict_get k items'
  end.

Definition field_ok (items : list (string * pyval)) (f : Field) : bool :=
  match dict_get (field_name f) items with
  | Some x => has_type (field_type f) x
  | None => negb (field_required f)
  end.

(** Schema-conformant, or fully valid against the schema: a mapping in
    which every required field is present and every declared field that is
    present holds a value of the declared type. *)
Definition schema_valid (schema : Schema) (v : pyval) : bool :=
  match v with
  | PDict items => forallb (field_ok items) schema
  | _ => false
  end.

(** A mapping with the schema's declared fields and no others. *)
Definition only_declared (schema : Schema) (v : pyval) : bool :=
  match v with
  | PDict items =>
      forallb (fun k => bool_decide (k ∈ field_name <$> schema)) items.*1
  | _ => false
  end.

Definition is_dict (v : pyval) : bool :=
  match v with PDict _ => true | _ => false end.


(** The generator is deterministic: its answer is a function of the prompt. *)
Definition deterministic (l : LLM) : Prop :=
  ∀ served served' p, generate l served p = generate l served' p.

(** The logger accepts every event. *)
Definition reliable_logger (lg : Logger) : Prop :=
  ∀ history ev, log_fault lg history ev = None.

(** The logger accepts every event of level [ERROR]. *)
Definition accepts_errors (lg : Logger) : Prop :=
  ∀ history ev, ev_level ev = ERROR -> log_fault lg history ev = None.

(** Whether the logger accepts an event does not depend on its history. *)
Definition stateless_logger (lg : Logger) : Prop :=
  ∀ history history' ev, log_fault lg history ev = log_fault lg history' ev.

(** A construction-time dependency that cannot be established. *)
Inductive unavailable (env : Env) : Exn -> Prop :=
| no_loader e :
    ModelLoader_new env = Raise e -> unavailable env e
| no_llm ld e :
    ModelLoader_new env = Return ld -> load_llm ld = Raise e ->
    unavailable env e
| no_parser e :
    JsonOutputParser_fault env = Some e -> unavailable env e
| no_fixing_parser e :
    from_llm_fault env = Some e -> unavailable env e
| no_template :
    PROMPT_REGISTRY env !! "document_analysis" = None ->
    unavailable env (MkExn KeyError "document_analysis" None None).

(** A property of the state that every step of a computation maintains,
    given as a relation between the state before and the state after. *)
Definition respects (R : relation State) {A} (m : M A) : Prop :=
  ∀ st, R st (m st).2.

(** [self] is kept; the prompts served only grow. *)
Definition same_self : relation State := fun st st' => self st' = self st.
Definition more_prompts : relation State :=
  fun st st' => ∃ more : list string, prompts st' = prompts st ++ more.

(** The log is kept; the prompts served are kept; the log only grows. *)
Definition same_log : relation State := fun st st' => log st' = log st.
Definition same_prompts : relation State :=
  fun st st' => prompts st' = prompts st.
Definition more_log : relation State :=
  fun st st' => ∃ more : list LogEvent, log st' = log st ++ more.

(** The attributes [__init__] assigns when the loader [ld] hands out the
    model [l] and the registry holds the template [t]. *)
Definition assembled (env : Env) (ld : ModelLoader) (l : LLM)
    (t : PromptTemplate) : DocumentAnalyzer :=
  let p := {| pydantic_object := Metadata env |} in
  {| loader := Some ld; llm := Some l; parser := Some p;
     fixing_parser :=
       Some {| fp_parser := p; fp_llm := l; fp_prompt := NAIVE_FIX_PROMPT;
               max_retries := default_max_retries env |};
     prompt := Some t |}.

(** The instance [o] came out of [DocumentAnalyzer()]. *)
Definition built (env : Env) (o : DocumentAnalyzer) : Prop :=
  ∃ st0 st1, DocumentAnalyzer_new env st0 = (Return o, st1).

(** ** A concrete deployment

    The schema and the completions of the spec's scenarios: a required
    [title] and an optional [tags]. *)

Module Scenario.

Definition schema : Schema :=
  [ {| field_name := "title"; field_type := TString; field_required := true |};
    {| field_name := "tags"; field_type := TSequence TString;
       field_required := false |} ].

Definition document_analysis : PromptTemplate :=
  [ Lit "Return ONLY valid JSON matching the schema. ";
    Var "format_instructions";
    Lit " Analyze this document: ";
    Var "document_text" ].

(** A JSON string literal: the text between two quotation marks. *)
Definition js (s : string) : string :=
  String "034"%char s +:+ String "034"%char "".

(** [{"title":"Report","tags":["a","b"],"extra":"x"}] *)
Definition report_extra : string :=
  "{" +:+ js "title" +:+ ":" +:+ js "Report" +:+ "," +:+
  js "tags" +:+ ":[" +:+ js "a" +:+ "," +:+ js "b" +:+ "]," +:+
  js "extra" +:+ ":" +:+ js "x" +:+ "}".
Definition report_extra_value : pyval :=
  PDict [ ("title", PStr "Report");
          ("tags", PList [PStr "a"; PStr "b"]);
          ("extra", PStr "x") ].

(** [{"tags":["a"]}] *)
Definition tags_only : string :=
  "{" +:+ js "tags" +:+ ":[" +:+ js "a" +:+ "]}".
Definition tags_only_value : pyval := PDict [ ("tags", PList [PStr "a"]) ].

(** [{"title":"Report","tags":[]}] *)
Definition report : string :=
  "{" +:+ js "title" +:+ ":" +:+ js "Report" +:+ "," +:+ js "tags" +:+ ":[]}".
Definition report_value : pyval :=
  PDict [ ("title", PStr "Report"); ("tags", PList []) ].

(** [["Report"]] *)
Definition array : string := "[" +:+ js "Report" +:+ "]".
Definition array_value : pyval := PList [PStr "Report"].

Definition garbled : string := "Sorry, I cannot help with that.".

(** The decoder on the completions above; any other text is not JSON. *)
Definition decode (text : string) : option pyval :=
  if decide (text = report_extra) then Some report_extra_value
  else if decide (text = tags_only) then Some tags_only_value
  else if decide (text = report) then Some report_value
  else if decide (text = array) then Some array_value
  else None.

(** A model that answers its n-th invocation with the n-th completion of a
    script and fails at the transport level once the script is used up. *)
Definition scripted (script : list string) : LLM :=
  {| generate := fun served _ =>
       match script !! length served with
       | Some completion => Return completion
       | None =>
           Raise (MkExn (OtherException "TimeoutError") "timed out" None None)
       end |}.

(** A model whose client trips over the provider's response: every
    invocation raises [KeyError('choices')]. *)
Definition tripping : LLM :=
  {| generate := fun _ _ => Raise (MkExn KeyError "choices" None None) |}.

(** A model that answers every prompt with the same completion. *)
Definition constant (completion : string) : LLM :=
  {| generate := fun _ _ => Return completion |}.

Definition reliable : Logger := {| log_fault := fun _ _ => None |}.

(** A logger whose sink takes [capacity] events and is full afterwards. *)
Definition full_after (capacity : nat) : Logger :=
  {| log_fault := fun history _ =>
       if decide (length history < capacity) then None
       else Some (MkExn (OtherException "OSError")
                    "No space left on device" None None) |}.

(** The note of langchain_core 0.3 on an output parsing failure. *)
Definition note : string :=
  String "010"%char
    "For troubleshooting, visit: https://python.langchain.com/docs/troubleshooting/errors/OUTPUT_PARSING_FAILURE ".

Definition deployment (l : LLM) (lg : Logger) (retries : nat) : Env :=
  {| ModelLoader_new := Return {| load_llm := Return l |};
     Metadata := schema;
     PROMPT_REGISTRY := {[ "document_analysis" := document_analysis ]};
     GLOBAL_LOGGER := lg;
     json_decode := decode;
     schema_instructions := fun _ => "title: string, tags: array of string";
     default_max_retries := retries;
     troubleshooting := note;
     JsonOutputParser_fault := None;
     from_llm_fault := None |}.

(** The deployment with a registry that lacks "document_analysis". *)
Definition unregistered (l : LLM) (lg : Logger) : Env :=
  {| ModelLoader_new := Return {| load_llm := Return l |};
     Metadata := schema;
     PROMPT_REGISTRY := {[ "summary" := document_analysis ]};
     GLOBAL_LOGGER := lg;
     json_decode := decode;
     schema_instructions := fun _ => "title: string, tags: array of string";
     default_max_retries := 1;
     troubleshooting := note;
     JsonOutputParser_fault := None;
     from_llm_fault := None |}.


Definition start : State := {| self := blank; log := []; prompts := [] |}.

(** The state after construction in the deployment. *)
Definition constructed (l : LLM) (lg : Logger) (retries : nat) : State :=
  (DocumentAnalyzer_new (deployment l lg retries) start).2.

End Scenario.

(** ** Facts about the monad and the collaborators *)

Ltac unfold_m :=
  unfold mbind, M_bind, mret, M_ret, raise, lift, getattr, no_attribute,
    update_self in *.

Section Steps.

Context (env : Env) (R : relation State) `{!PreOrder R}.

Lemma respects_ret {A} (a : A) : respects R (mret a).
Proof. by intros st. Qed.

Lemma respects_raise {A} (e : Exn) : respects R (raise (A := A) e).
Proof. by intros st. Qed.

Lemma respects_lift {A} (o : Outcome A) : respects R (lift o).
Proof. by intros st. Qed.

Lemma respects_getattr {A} (proj : DocumentAnalyzer -> option A) name :
  respects R (getattr proj name).
Proof. intros st. unfold getattr. by destruct (proj (self st)). Qed.

Lemma respects_bind {A B} (m : M A) (f : A -> M B) :
  respects R m -> (∀ a, respects R (f a)) -> respects R (m ≫= f).
Proof.
  intros Hm Hf st. unfold mbind, M_bind.
  specialize (Hm st). destruct (m st) as [[a|e] st']; simpl in *; [|done].
  by etrans; [|apply Hf].
Qed.

Lemma respects_try {A} (body : M A) (handler : Exn -> M A) :
  respects R body -> (∀ e, respects R (handler e)) ->
  respects R (try_except body handler).
Proof.
  intros Hb Hh st. unfold try_except.
  specialize (Hb st). destruct (body st) as [[a|e] st']; simpl in *; [done|].
  specialize (Hh e st'). destruct (handler e st') as [[a|x] st'']; simpl in *;
    by etrans.
Qed.

(** The two steps that change the state outside [self]. *)
Hypothesis respects_emit : ∀ ev, respects R (emit env ev).
Hypothesis respects_invoke_llm : ∀ l p, respects R (invoke_llm l p).

Lemma respects_retry_chain fp completion e :
  respects R (retry_chain_invoke env fp completion e).
Proof.
  apply respects_bind; [apply respects_lift|].
  intros p. apply respects_invoke_llm.
Qed.

Lemma respects_fix_loop fp n : ∀ completion,
  respects R (fix_loop env fp n completion).
Proof.
  induction n as [|n IH]; intros completion; simpl;
    destruct (JsonOutputParser_parse env (fp_parser fp) completion) as [v|e];
    try apply respects_ret;
    destruct (decide (exn_class e = OutputParserException));
    try apply respects_raise.
  apply respects_bind; [apply respects_retry_chain|done].
Qed.

Lemma respects_chain_invoke c inputs : respects R (chain_invoke env c inputs).
Proof.
  apply respects_bind; [apply respects_lift|]. intros p.
  apply respects_bind; [apply respects_invoke_llm|]. intros completion.
  apply respects_fix_loop.
Qed.

Lemma respects_run_chain d : respects R (run_chain env d).
Proof.
  unfold run_chain.
  repeat (apply respects_bind; [apply respects_getattr|intros ?]).
  apply respects_bind; [apply respects_emit|intros _].
  apply respects_bind; [apply respects_getattr|intros ?].
  apply respects_chain_invoke.
Qed.

Lemma respects_analyze_handler e : respects R (analyze_handler env e).
Proof.
  apply respects_bind; [apply respects_emit|intros _]. apply respects_raise.
Qed.

Lemma respects_analyze_document d : respects R (analyze_document env d).
Proof.
  apply respects_try; [|apply respects_analyze_handler].
  apply respects_bind; [apply respects_run_chain|intros response].
  apply respects_bind; [apply respects_lift|intros keys].
  apply respects_bind; [apply respects_emit|intros _].
  apply respects_ret.
Qed.

(** What follows [chain.invoke] maintains the property as well. *)
Lemma respects_after_run_chain d st :
  R (run_chain env d st).2 (analyze_document env d st).2.
Proof.
  unfold analyze_document, try_except, analyze_body, mbind, M_bind.
  destruct (run_chain env d st) as [[v|e] st1]; simpl.
  - unfold lift. destruct (py_keys v) as [keys|e].
    + pose proof (respects_emit (success_event keys) st1) as H1.
      destruct (emit env (success_event keys) st1) as [[[]|x] st2]; simpl in *.
      * done.
      * pose proof (respects_analyze_handler x st2) as H2.
        destruct (analyze_handler env x st2) as [[a|y] st3]; simpl in *;
          by etrans.
    + pose proof (respects_analyze_handler e st1) as H2.
      by destruct (analyze_handler env e st1) as [[a|y] st3].
  - pose proof (respects_analyze_handler e st1) as H2.
    by destruct (analyze_handler env e st1) as [[a|y] st3].
Qed.

End Steps.

(** The two relations in use are preorders. *)

Global Instance same_self_preorder : PreOrder same_self.
Proof. split; [by intros st|]. intros a b c Hab Hbc. unfold same_self in *. congruence. Qed.

Global Instance more_prompts_preorder : PreOrder more_prompts.
Proof.
  split.
  - intros st. exists []. by rewrite app_nil_r.
  - intros a b c [m1 H1] [m2 H2]. exists (m1 ++ m2).
    by rewrite H2, H1, app_assoc.
Qed.

Section Frame.

Context (env : Env).

Lemma same_self_emit ev : respects same_self (emit env ev).
Proof.
  intros st. unfold emit, same_self.
  by destruct (log_fault (GLOBAL_LOGGER env) (log st) ev).
Qed.

Lemma same_self_invoke_llm l p : respects same_self (invoke_llm l p).
Proof. by intros st. Qed.

Lemma more_prompts_emit ev : respects more_prompts (emit env ev).
Proof.
  intros st. unfold emit, more_prompts.
  destruct (log_fault (GLOBAL_LOGGER env) (log st) ev); simpl;
    exists []; by rewrite app_nil_r.
Qed.


(** [analyze_document] assigns no attribute of [self]. *)
Lemma analyze_document_same_self d st :
  self (analyze_document env d st).2 = self st.
Proof.
  apply (respects_analyze_document env same_self);
    [apply same_self_emit|apply same_self_invoke_llm].
Qed.

End Frame.

(** ** Runs of the program *)

Section Runs.

Context (env : Env).



(** The fast path: a completion that decodes is returned at once. *)
Lemma fix_loop_valid fp n text v st :
  json_decode env (py_strip text) = Some v ->
  fix_loop env fp n text st = (Return v, st).
Proof.
  intros H. destruct n; simpl; unfold JsonOutputParser_parse; by rewrite H.
Qed.

(** Whatever the loop returns is the decoding of some completion. *)
Lemma fix_loop_decoded fp n : ∀ text st v st',
  fix_loop env fp n text st = (Return v, st') ->
  ∃ text', json_decode env text' = Some v.
Proof.
  induction n as [|n IH]; intros text st v st'; simpl;
    unfold JsonOutputParser_parse;
    destruct (json_decode env (py_strip text)) as [w|] eqn:Hd.
  - intros [= <- <-]. eauto.
  - by destruct (decide _).
  - intros [= <- <-]. eauto.
  - destruct (decide _); [|done]. unfold mbind, M_bind.
    destruct (retry_chain_invoke env fp text _ st) as [[c|x] st1]; [|done].
    apply IH.
Qed.


(** What a successful construction leaves in [self]. *)
Lemma built_inv o :
  built env o ->
  ∃ ld l t,
    ModelLoader_new env = Return ld ∧ load_llm ld = Return l ∧
    JsonOutputParser_fault env = None ∧ from_llm_fault env = None ∧
    PROMPT_REGISTRY env !! "document_analysis" = Some t ∧
    o = {| loader := Some ld; llm := Some l;
           parser := Some {| pydantic_object := Metadata env |};
           fixing_parser :=
             Some {| fp_parser := {| pydantic_object := Metadata env |};
                     fp_llm := l; fp_prompt := NAIVE_FIX_PROMPT;
                     max_retries := default_max_retries env |};
           prompt := Some t |}.
Proof.
  intros (st0 & st1 & H).
  unfold DocumentAnalyzer_new, __init__, try_except, init_body, init_handler in H.
  unfold JsonOutputParser_new, OutputFixingParser_from_llm, getitem in H.
  unfold set_loader, set_llm, set_parser, set_fixing_parser, set_prompt in H.
  unfold_m. simpl in H.
  destruct (ModelLoader_new env) as [ld|e] eqn:H1; simpl in H;
    [|by destruct (emit env _ _) as [[[]|?] ?]].
  destruct (load_llm ld) as [l|e] eqn:H2; simpl in H;
    [|by destruct (emit env _ _) as [[[]|?] ?]].
  destruct (JsonOutputParser_fault env) as [e|] eqn:H3; simpl in H;
    [by destruct (emit env _ _) as [[[]|?] ?]|].
  destruct (from_llm_fault env) as [e|] eqn:H4; simpl in H;
    [by destruct (emit env _ _) as [[[]|?] ?]|].
  destruct (PROMPT_REGISTRY env !! "document_analysis") as [t|] eqn:H5;
    simpl in H; [|by destruct (emit env _ _) as [[[]|?] ?]].
  exists ld, l, t. repeat split; try done.
  unfold emit in H. simpl in H.
  destruct (log_fault (GLOBAL_LOGGER env) (log st0) initialized_event) as [x|];
    simpl in H.
  - by destruct (log_fault _ _ _).
  - by injection H as <- _.
Qed.

End Runs.

(** ** The methods, statement by statement *)

Section Equations.

Context (env : Env).

Lemma chain_invoke_eq c inputs q st :
  format_prompt (chain_prompt c) inputs = Return q ->
  chain_invoke env c inputs st =
    let st1 := {| self := self st; log := log st;
                  prompts := prompts st ++ [q] |} in
    match generate (chain_llm c) (prompts st) q with
    | Return text =>
        fix_loop env (chain_parser c) (max_retries (chain_parser c)) text st1
    | Raise e => (Raise e, st1)
    end.
Proof.
  intros Hq. unfold chain_invoke, mbind, M_bind, lift, invoke_llm.
  rewrite Hq. by destruct (generate (chain_llm c) (prompts st) q).
Qed.

Lemma run_chain_eq d st t l fp p :
  prompt (self st) = Some t -> llm (self st) = Some l ->
  fixing_parser (self st) = Some fp -> parser (self st) = Some p ->
  run_chain env d st =
    match log_fault (GLOBAL_LOGGER env) (log st) started_event with
    | Some x => (Raise x, st)
    | None =>
        chain_invoke env
          {| chain_prompt := t; chain_llm := l; chain_parser := fp |}
          (make_inputs (get_format_instructions env p) d)
          {| self := self st; log := log st ++ [started_event];
             prompts := prompts st |}
    end.
Proof.
  intros Ht Hl Hfp Hp. unfold run_chain, mbind, M_bind, getattr, emit.
  rewrite Ht, Hl, Hfp.
  destruct (log_fault (GLOBAL_LOGGER env) (log st) started_event); [done|].
  simpl. by rewrite Hp.
Qed.

Lemma analyze_body_eq d st :
  analyze_body env d st =
    match run_chain env d st with
    | (Return v, st1) =>
        match py_keys v with
        | Return keys =>
            match log_fault (GLOBAL_LOGGER env) (log st1) (success_event keys) with
            | None =>
                (Return v,
                 {| self := self st1; log := log st1 ++ [success_event keys];
                    prompts := prompts st1 |})
            | Some x => (Raise x, st1)
            end
        | Raise e => (Raise e, st1)
        end
    | (Raise e, st1) => (Raise e, st1)
    end.
Proof.
  unfold analyze_body, mbind, M_bind, lift, emit, mret, M_ret.
  destruct (run_chain env d st) as [[v|e] st1]; [|done].
  destruct (py_keys v) as [keys|e]; [|done].
  by destruct (log_fault (GLOBAL_LOGGER env) (log st1) (success_event keys)).
Qed.

Lemma analyze_document_eq d st :
  analyze_document env d st =
    match analyze_body env d st with
    | (Return v, st1) => (Return v, st1)
    | (Raise e, st1) =>
        match log_fault (GLOBAL_LOGGER env) (log st1) (failure_event e) with
        | None =>
            (Raise (MkExn DocumentPortalException "Metadata extraction failed"
                      None (Some e)),
             {| self := self st1; log := log st1 ++ [failure_event e];
                prompts := prompts st1 |})
        | Some x => (Raise (chain_context e x), st1)
        end
    end.
Proof.
  unfold analyze_document, try_except, analyze_handler, mbind, M_bind, emit,
    raise.
  destruct (analyze_body env d st) as [[v|e] st1]; [done|].
  by destruct (log_fault (GLOBAL_LOGGER env) (log st1) (failure_event e)).
Qed.

(** Whatever [chain.invoke] returns is the decoding of some completion. *)
Lemma run_chain_decoded d st v st1 :
  run_chain env d st = (Return v, st1) ->
  ∃ text, json_decode env text = Some v.
Proof.
  unfold run_chain, chain_invoke, OutputFixingParser_parse, mbind, M_bind,
    getattr, no_attribute, raise, lift.
  destruct (prompt (self st)) as [t|]; [|done].
  destruct (llm (self st)) as [l|]; [|done].
  destruct (fixing_parser (self st)) as [fp|]; [|done].
  destruct (emit env started_event st) as [[[]|x] st2]; [|done].
  destruct (parser (self st2)) as [p|]; [|done].
  destruct (format_prompt _ _) as [q|x]; [|done].
  unfold invoke_llm. simpl.
  destruct (generate l (prompts st2) q) as [text|x]; [|done].
  apply fix_loop_decoded.
Qed.

(** The fast path of a built analyzer: the first completion decodes to a
    mapping, which is returned as decoded after a single invocation of the
    generator. *)
Lemma fast_path o st d t l q text items :
  built env o -> self st = o -> prompt o = Some t -> llm o = Some l ->
  reliable_logger (GLOBAL_LOGGER env) ->
  format_prompt t (make_inputs (schema_instructions env (Metadata env)) d)
    = Return q ->
  generate l (prompts st) q = Return text ->
  json_decode env (py_strip text) = Some (PDict items) ->
  analyze_document env d st =
    (Return (PDict items),
     {| self := self st;
        log := log st ++ [started_event; success_event items.*1];
        prompts := prompts st ++ [q] |}).
Proof.
  intros Hb Hself Ht Hl Hlog Hq Hg Hd.
  destruct (built_inv env o Hb) as (ld & l' & t' & _ & _ & _ & _ & _ & ->).
  simpl in Ht, Hl. injection Ht as <-. injection Hl as <-.
  rewrite analyze_document_eq, analyze_body_eq.
  erewrite run_chain_eq by (rewrite Hself; reflexivity).
  rewrite Hlog. erewrite chain_invoke_eq by exact Hq. simpl.
  rewrite Hg. rewrite (fix_loop_valid env _ _ _ _ _ Hd). simpl.
  rewrite Hlog. by rewrite <- app_assoc.
Qed.

End Equations.

(** ** Outcomes that do not depend on the log or on the prompts served *)

Section Blind.

Context (env : Env).
Hypothesis logger_stateless : stateless_logger (GLOBAL_LOGGER env).

Lemma fix_loop_blind fp n :
  deterministic (fp_llm fp) ->
  ∀ text st st',
    (fix_loop env fp n text st).1 = (fix_loop env fp n text st').1.
Proof.
  intros Hdet. induction n as [|n IH]; intros text st st'; simpl;
    destruct (JsonOutputParser_parse env (fp_parser fp) text) as [v|e];
    try done; destruct (decide _); try done.
  unfold mbind, M_bind, retry_chain_invoke, lift, invoke_llm.
  destruct (format_prompt _ _) as [q|x]; [|done]. simpl.
  rewrite (Hdet (prompts st) (prompts st') q).
  destruct (generate (fp_llm fp) (prompts st') q) as [text'|x]; [|done].
  apply IH.
Qed.

Lemma chain_invoke_blind c inputs :
  deterministic (chain_llm c) ->
  deterministic (fp_llm (chain_parser c)) ->
  ∀ st st',
    (chain_invoke env c inputs st).1 = (chain_invoke env c inputs st').1.
Proof.
  intros Hl Hfp st st'.
  unfold chain_invoke, OutputFixingParser_parse, mbind, M_bind, lift, invoke_llm.
  destruct (format_prompt _ _) as [q|x]; [|done]. simpl.
  rewrite (Hl (prompts st) (prompts st') q).
  destruct (generate (chain_llm c) (prompts st') q) as [text|x]; [|done].
  by apply fix_loop_blind.
Qed.

Lemma run_chain_blind d st st' :
  self st' = self st ->
  (∀ l, llm (self st) = Some l -> deterministic l) ->
  (∀ fp, fixing_parser (self st) = Some fp -> deterministic (fp_llm fp)) ->
  (run_chain env d st').1 = (run_chain env d st).1.
Proof.
  intros Hself Hl Hfp.
  unfold run_chain, mbind, M_bind, getattr, no_attribute, raise, emit.
  rewrite Hself.
  destruct (prompt (self st)) as [t|]; simpl; [|done]. rewrite Hself.
  destruct (llm (self st)) as [l|] eqn:El; simpl; [|done]. rewrite Hself.
  destruct (fixing_parser (self st)) as [fp|] eqn:Efp; simpl; [|done].
  rewrite (logger_stateless (log st') (log st) started_event).
  destruct (log_fault (GLOBAL_LOGGER env) (log st) started_event); [done|].
  simpl. rewrite Hself.
  destruct (parser (self st)) as [p|]; simpl; [|done].
  apply chain_invoke_blind; simpl; auto.
Qed.

Lemma analyze_body_blind d st st' :
  self st' = self st ->
  (∀ l, llm (self st) = Some l -> deterministic l) ->
  (∀ fp, fixing_parser (self st) = Some fp -> deterministic (fp_llm fp)) ->
  (analyze_body env d st').1 = (analyze_body env d st).1.
Proof.
  intros Hself Hl Hfp. rewrite !analyze_body_eq.
  pose proof (run_chain_blind d st st' Hself Hl Hfp) as H.
  destruct (run_chain env d st') as [o' st1'].
  destruct (run_chain env d st) as [o st1]. simpl in H. subst o'.
  destruct o as [v|e]; [|done].
  destruct (py_keys v) as [keys|e]; [|done].
  rewrite (logger_stateless (log st1') (log st1) (success_event keys)).
  by destruct (log_fault _ _ _).
Qed.

Lemma analyze_document_blind d st st' :
  self st' = self st ->
  (∀ l, llm (self st) = Some l -> deterministic l) ->
  (∀ fp, fixing_parser (self st) = Some fp -> deterministic (fp_llm fp)) ->
  (analyze_document env d st').1 = (analyze_document env d st).1.
Proof.
  intros Hself Hl Hfp. rewrite !analyze_document_eq.
  pose proof (analyze_body_blind d st st' Hself Hl Hfp) as H.
  destruct (analyze_body env d st') as [o' st1'].
  destruct (analyze_body env d st) as [o st1]. simpl in H. subst o'.
  destruct o as [v|e]; [done|].
  rewrite (logger_stateless (log st1') (log st1) (failure_event e)).
  by destruct (log_fault _ _ _).
Qed.

End Blind.

(** ** Rendering *)



(** ** Accounting for the log and the prompts *)

Global Instance same_log_preorder : PreOrder same_log.
Proof.
  split; [by intros st|]. intros a b c Hab Hbc. unfold same_log in *.
  congruence.
Qed.

Global Instance same_prompts_preorder : PreOrder same_prompts.
Proof.
  split; [by intros st|]. intros a b c Hab Hbc. unfold same_prompts in *.
  congruence.
Qed.

Global Instance more_log_preorder : PreOrder more_log.
Proof.
  split.
  - intros st. exists []. by rewrite app_nil_r.
  - intros a b c [m1 H1] [m2 H2]. exists (m1 ++ m2).
    by rewrite H2, H1, app_assoc.
Qed.

Section Accounting.

Context (env : Env).

Lemma same_log_invoke_llm l p : respects same_log (invoke_llm l p).
Proof. by intros st. Qed.

Lemma same_prompts_emit ev : respects same_prompts (emit env ev).
Proof.
  intros st. unfold emit, same_prompts.
  by destruct (log_fault (GLOBAL_LOGGER env) (log st) ev).
Qed.

(** The chain logs nothing of its own. *)
Lemma chain_invoke_same_log c inputs st :
  log (chain_invoke env c inputs st).2 = log st.
Proof. apply (respects_chain_invoke env same_log same_log_invoke_llm). Qed.

(** After [chain.invoke], the prompts served stay as they are. *)
Lemma prompts_after_run_chain d st :
  prompts (analyze_document env d st).2 = prompts (run_chain env d st).2.
Proof.
  apply (respects_after_run_chain env same_prompts same_prompts_emit).
Qed.

(** [run_chain] logs the start of the chain and nothing else; when it does
    not get to log it, it raises. *)
Lemma run_chain_log d st :
  log (run_chain env d st).2 = log st ++ [started_event] ∨
  (log (run_chain env d st).2 = log st ∧
   prompts (run_chain env d st).2 = prompts st ∧
   returned (run_chain env d st).1 = false).
Proof.
  unfold run_chain, mbind, M_bind, getattr, no_attribute, raise, emit.
  destruct (prompt (self st)) as [t|]; simpl; [|by right].
  destruct (llm (self st)) as [l|]; simpl; [|by right].
  destruct (fixing_parser (self st)) as [fp|]; simpl; [|by right].
  destruct (log_fault (GLOBAL_LOGGER env) (log st) started_event); simpl;
    [by right|].
  destruct (parser (self st)) as [p|]; simpl; [|by left].
  left. apply chain_invoke_same_log.
Qed.

(** A repair sends at most one prompt. *)
Lemma retry_chain_bound fp completion e st :
  (length (prompts (retry_chain_invoke env fp completion e st).2)
    ≤ length (prompts st) + 1)%nat.
Proof.
  unfold retry_chain_invoke, mbind, M_bind, lift, invoke_llm.
  destruct (format_prompt _ _) as [q|x]; simpl; [|lia].
  rewrite length_app. simpl. lia.
Qed.

(** The loop sends at most one prompt for each retry it has. *)
Lemma fix_loop_bound fp n : ∀ text st,
  (length (prompts (fix_loop env fp n text st).2)
    ≤ length (prompts st) + n)%nat.
Proof.
  induction n as [|n IH]; intros text st; simpl;
    destruct (JsonOutputParser_parse env (fp_parser fp) text) as [v|e];
    simpl; try lia; destruct (decide _); simpl; try lia.
  unfold mbind, M_bind.
  pose proof (retry_chain_bound fp text e st) as Hr.
  destruct (retry_chain_invoke env fp text e st) as [[c|x] st1]; simpl in *;
    [|lia].
  specialize (IH c st1). lia.
Qed.

Lemma chain_invoke_bound c inputs st :
  (length (prompts (chain_invoke env c inputs st).2)
    ≤ length (prompts st) + (max_retries (chain_parser c) + 1))%nat.
Proof.
  unfold chain_invoke, OutputFixingParser_parse, mbind, M_bind, lift,
    invoke_llm.
  destruct (format_prompt _ _) as [q|x]; simpl; [|lia].
  destruct (generate (chain_llm c) (prompts st) q) as [text|x]; simpl.
  - etrans; [apply fix_loop_bound|]. simpl. rewrite length_app. simpl. lia.
  - rewrite length_app. simpl. lia.
Qed.

Lemma run_chain_bound d st fp :
  fixing_parser (self st) = Some fp ->
  (length (prompts (run_chain env d st).2)
    ≤ length (prompts st) + (max_retries fp + 1))%nat.
Proof.
  intros Hfp.
  unfold run_chain, mbind, M_bind, getattr, no_attribute, raise, emit.
  destruct (prompt (self st)) as [t|]; simpl; [|lia].
  destruct (llm (self st)) as [l|]; simpl; [|lia].
  rewrite Hfp. simpl.
  destruct (log_fault (GLOBAL_LOGGER env) (log st) started_event); simpl;
    [lia|].
  destruct (parser (self st)) as [p|]; simpl; [|lia].
  etrans; [apply chain_invoke_bound|]. simpl. lia.
Qed.

(** What the loop returns is the decoding of the completion that answered
    the last prompt served. *)
Lemma fix_loop_last fp n : ∀ text st served p v st',
  prompts st = served ++ [p] ->
  generate (fp_llm fp) served p = Return text ->
  fix_loop env fp n text st = (Return v, st') ->
  ∃ served' p' text',
    prompts st' = served' ++ [p'] ∧
    generate (fp_llm fp) served' p' = Return text' ∧
    json_decode env (py_strip text') = Some v.
Proof.
  induction n as [|n IH]; intros text st served p v st' Hps Hg; simpl;
    unfold JsonOutputParser_parse;
    destruct (json_decode env (py_strip text)) as [w|] eqn:Hd.
  - intros [= <- <-]. by exists served, p, text.
  - by destruct (decide _).
  - intros [= <- <-]. by exists served, p, text.
  - destruct (decide _); [|done].
    unfold mbind, M_bind, retry_chain_invoke, lift, invoke_llm.
    destruct (format_prompt _ _) as [q|x]; simpl; [|done].
    destruct (generate (fp_llm fp) (prompts st) q) as [c|x] eqn:Hc; [|done].
    by apply (IH c _ (prompts st) q).
Qed.

End Accounting.

(** ** Construction, statement by statement *)

(** The first statement of [__init__] whose dependency is unavailable
    raises, before anything is logged. *)
Lemma init_body_unavailable (env : Env) (cause : Exn) (st : State) :
  unavailable env cause ->
  ∃ e st1, init_body env st = (Raise e, st1) ∧ unavailable env e ∧
           log st1 = log st.
Proof.
  intros Hu.
  unfold init_body, JsonOutputParser_new, OutputFixingParser_from_llm, getitem,
    set_loader, set_llm, set_parser, set_fixing_parser, set_prompt.
  unfold_m.
  destruct (ModelLoader_new env) as [ld|e] eqn:H1; simpl.
  2: { eexists _, _. split; [reflexivity|]. split; [by apply no_loader|done]. }
  destruct (load_llm ld) as [l|e] eqn:H2; simpl.
  2: { eexists _, _. split; [reflexivity|].
       split; [by apply (no_llm env ld)|done]. }
  destruct (JsonOutputParser_fault env) as [e|] eqn:H3; simpl.
  { eexists _, _. split; [reflexivity|]. split; [by apply no_parser|done]. }
  destruct (from_llm_fault env) as [e|] eqn:H4; simpl.
  { eexists _, _. split; [reflexivity|].
    split; [by apply no_fixing_parser|done]. }
  destruct (PROMPT_REGISTRY env !! "document_analysis") as [t|] eqn:H5; simpl.
  - exfalso. inversion Hu; congruence.
  - eexists _, _. split; [reflexivity|]. split; [by apply no_template|done].
Qed.

(** With every dependency at hand, the body of [__init__] assigns the five
    attributes and is left with the log call. *)
Lemma init_body_assembles (env : Env) (st : State) (ld : ModelLoader)
    (l : LLM) (t : PromptTemplate) :
  ModelLoader_new env = Return ld -> load_llm ld = Return l ->
  JsonOutputParser_fault env = None -> from_llm_fault env = None ->
  PROMPT_REGISTRY env !! "document_analysis" = Some t ->
  init_body env st =
    emit env initialized_event
      {| self := assembled env ld l t; log := log st; prompts := prompts st |}.
Proof.
  intros H1 H2 H3 H4 H5.
  unfold init_body, JsonOutputParser_new, OutputFixingParser_from_llm, getitem,
    set_loader, set_llm, set_parser, set_fixing_parser, set_prompt.
  unfold_m. rewrite H1. simpl. rewrite H2. simpl. rewrite H3. simpl.
  rewrite H4. simpl. rewrite H5. reflexivity.
Qed.

Lemma init_eq (env : Env) (st : State) :
  __init__ env st =
    match init_body env st with
    | (Return a, st1) => (Return a, st1)
    | (Raise e, st1) =>
        match log_fault (GLOBAL_LOGGER env) (log st1) (init_failure_event e) with
        | None =>
            (Raise (MkExn DocumentPortalException
                      "Error in DocumentAnalyzer initialization" None (Some e)),
             {| self := self st1; log := log st1 ++ [init_failure_event e];
                prompts := prompts st1 |})
        | Some x => (Raise (chain_context e x), st1)
        end
    end.
Proof.
  unfold __init__, try_except, init_handler, mbind, M_bind, emit, raise.
  destruct (init_body env st) as [[v|e] st1]; [done|].
  by destruct (log_fault (GLOBAL_LOGGER env) (log st1) (init_failure_event e)).
Qed.

(** ** The claims *)

Import Scenario.

(** C9. Every call to [analyze_document], whether it returns or raises,
    leaves the attributes of the analyzer instance ([loader], [llm],
    [parser], [fixing_parser], [prompt]) as they were: the chain is a local
    value and no step of the method assigns an attribute. *)
Theorem analyze_document_keeps_instance (env : Env) (d : string) (st : State) :
  let st' := (analyze_document env d st).2 in
  self st' = self st ∧
  loader (self st') = loader (self st) ∧
  llm (self st') = llm (self st) ∧
  parser (self st') = parser (self st) ∧
  fixing_parser (self st') = fixing_parser (self st) ∧
  prompt (self st') = prompt (self st).
Proof.
  simpl. rewrite analyze_document_same_self. repeat split.
Qed.

(** C4, as the code has it.  Whatever makes the body of [analyze_document]
    fail (rendering, generation, parsing, exhausted repair), the [except]
    clause calls [log.error] with [str(e)].  When the logger takes the event,
    the call raises the one wrapper,
    [DocumentPortalException("Metadata extraction failed")], whose context is
    the original error [e].  When the logger raises instead, nothing is
    logged and the logger's error leaves the call, with [e] as its
    context. *)
Theorem failure_is_logged_and_wrapped (env : Env) (d : string)
    (st st1 : State) (e : Exn) :
  analyze_body env d st = (Raise e, st1) ->
  match log_fault (GLOBAL_LOGGER env) (log st1) (failure_event e) with
  | None =>
      analyze_document env d st =
        (Raise (MkExn DocumentPortalException "Metadata extraction failed"
                  None (Some e)),
         {| self := self st1;
            log := log st1 ++
                   [ {| ev_level := ERROR;
                        ev_message := "Metadata analysis failed";
                        ev_payload := [("error", PStr (str_exn e))] |} ];
            prompts := prompts st1 |})
  | Some x =>
      analyze_document env d st =
        (Raise (MkExn (exn_class x) (exn_message x) (exn_llm_output x)
                  (Some e)), st1)
  end.
Proof.
  intros Hbody. rewrite analyze_document_eq, Hbody.
  by destruct (log_fault (GLOBAL_LOGGER env) (log st1) (failure_event e)).
Qed.

Lemma failure_is_logged_and_wrapped_witness :
  let env := deployment tripping reliable 1 in
  let run := analyze_document env "doc" (constructed tripping reliable 1) in
  run.1 =
    Raise (MkExn DocumentPortalException "Metadata extraction failed" None
             (Some (MkExn KeyError "choices" None None))) ∧
  last (log run.2) =
    Some {| ev_level := ERROR; ev_message := "Metadata analysis failed";
            ev_payload := [("error", PStr "'choices'")] |}.
Proof.
  intros env run.
  pose proof (failure_is_logged_and_wrapped env "doc"
                (constructed tripping reliable 1)
                (analyze_body env "doc" (constructed tripping reliable 1)).2
                (MkExn KeyError "choices" None None) eq_refl) as H.
  simpl in H. unfold run. rewrite H. split; reflexivity.
Defined.

(** C4, as stated, fails: the generator times out, and the logger's sink is
    full when [log.error] is called; the error that leaves the call is the
    logger's [OSError], not the wrapper, and no [ERROR] event has been
    logged. *)
Lemma logger_failure_unwraps_failure :
  let l := scripted [] in
  let env := deployment l (full_after 2) 1 in
  let run := analyze_document env "doc" (constructed l (full_after 2) 1) in
  (analyze_body env "doc" (constructed l (full_after 2) 1)).1 =
    Raise (MkExn (OtherException "TimeoutError") "timed out" None None) ∧
  run.1 =
    Raise (MkExn (OtherException "OSError") "No space left on device" None
             (Some (MkExn (OtherException "TimeoutError") "timed out" None
                      None))) ∧
  log run.2 = [initialized_event; started_event] ∧
  ev_level <$> log run.2 = [INFO; INFO].
Proof. vm_compute. repeat split. Qed.

(** C10, as the code has it.  When [chain.invoke] yields a value that is not
    a [dict] (a JSON array, a bare string), [analyze_document] never returns
    it: [response.keys()] raises [AttributeError] inside the [try] block.
    When [log.error] takes its event, the call raises the wrapper with that
    error as its context; when [log.error] raises, the logger's error leaves
    the call instead. *)
Theorem non_object_response_raises (env : Env) (d : string) (st st1 : State)
    (v : pyval) :
  run_chain env d st = (Return v, st1) ->
  is_dict v = false ->
  match log_fault (GLOBAL_LOGGER env) (log st1) (failure_event (no_keys v)) with
  | None =>
      analyze_document env d st =
        (Raise (MkExn DocumentPortalException "Metadata extraction failed"
                  None (Some (no_keys v))),
         {| self := self st1; log := log st1 ++ [failure_event (no_keys v)];
            prompts := prompts st1 |})
  | Some x =>
      analyze_document env d st =
        (Raise (MkExn (exn_class x) (exn_message x) (exn_llm_output x)
                  (Some (no_keys v))), st1)
  end.
Proof.
  intros Hrun Hv. rewrite analyze_document_eq, analyze_body_eq, Hrun.
  assert (py_keys v = Raise (no_keys v)) as -> by (by destruct v).
  by destruct (log_fault _ _ _).
Qed.

Lemma non_object_response_raises_witness :
  let l := constant array in
  let env := deployment l reliable 1 in
  let st := constructed l reliable 1 in
  (run_chain env "doc" st).1 = Return array_value ∧
  (analyze_document env "doc" st).1 =
    Raise (MkExn DocumentPortalException "Metadata extraction failed" None
             (Some (MkExn AttributeError
                      "'list' object has no attribute 'keys'" None None))).
Proof.
  intros l env st. split; [vm_compute; reflexivity|].
  pose proof (non_object_response_raises env "doc" st
                (run_chain env "doc" st).2 array_value eq_refl eq_refl) as H.
  simpl in H. rewrite H. reflexivity.
Defined.

(** C10, as stated, fails: the chain yields the array [["Report"]] and the
    logger's sink is full when [log.error] is called; the call raises the
    logger's [OSError], not the wrapper. *)
Lemma non_object_response_can_raise_logger_error :
  let l := constant array in
  let env := deployment l (full_after 2) 1 in
  let st := constructed l (full_after 2) 1 in
  (run_chain env "doc" st).1 = Return array_value ∧
  (analyze_document env "doc" st).1 =
    Raise (MkExn (OtherException "OSError") "No space left on device" None
             (Some (MkExn AttributeError
                      "'list' object has no attribute 'keys'" None None))).
Proof. vm_compute. repeat split. Qed.

(** C7, as the code has it.  When the pipeline produced a mapping, the call
    returns it exactly when the logger takes the success event.  A logger
    that raises on that event makes the call raise: the result is lost, and
    once [log.error] has taken its event the error is the wrapper with the
    logger's error as its context. *)
Theorem result_depends_on_success_log (env : Env) (d : string)
    (st st1 : State) (items : list (string * pyval)) :
  run_chain env d st = (Return (PDict items), st1) ->
  match log_fault (GLOBAL_LOGGER env) (log st1) (success_event items.*1) with
  | None =>
      analyze_document env d st =
        (Return (PDict items),
         {| self := self st1; log := log st1 ++ [success_event items.*1];
            prompts := prompts st1 |})
  | Some x =>
      returned (analyze_document env d st).1 = false ∧
      (log_fault (GLOBAL_LOGGER env) (log st1) (failure_event x) = None ->
       analyze_document env d st =
         (Raise (MkExn DocumentPortalException "Metadata extraction failed"
                   None (Some x)),
          {| self := self st1; log := log st1 ++ [failure_event x];
             prompts := prompts st1 |}))
  end.
Proof.
  intros Hrun. rewrite analyze_document_eq, analyze_body_eq, Hrun. simpl.
  destruct (log_fault (GLOBAL_LOGGER env) (log st1) (success_event items.*1))
    as [x|]; [|done].
  split.
  - by destruct (log_fault _ _ _).
  - by intros ->.
Qed.

Lemma result_depends_on_success_log_witness :
  let l := constant report in
  let st := constructed l (full_after 2) 1 in
  let env := deployment l (full_after 2) 1 in
  returned (analyze_document env "doc" st).1 = false.
Proof.
  refine (proj1 (result_depends_on_success_log
           (deployment (constant report) (full_after 2) 1) "doc"
           (constructed (constant report) (full_after 2) 1)
           (run_chain (deployment (constant report) (full_after 2) 1) "doc"
              (constructed (constant report) (full_after 2) 1)).2
           [("title", PStr "Report"); ("tags", PList [])] _)).
  vm_compute. reflexivity.
Defined.

(** C7, as stated, fails: the generator answered with a schema-valid
    document and the chain returned it, but the logger's sink is full when
    the success event is emitted, and the call raises instead of returning
    the result. *)
Lemma logger_failure_masks_result :
  let l := constant report in
  let st := constructed l (full_after 2) 1 in
  let env := deployment l (full_after 2) 1 in
  (run_chain env "doc" st).1 = Return report_value ∧
  schema_valid (Metadata env) report_value = true ∧
  (analyze_document env "doc" st).1 =
    Raise (MkExn (OtherException "OSError") "No space left on device" None
             (Some (MkExn (OtherException "OSError") "No space left on device"
                      None None))) ∧
  returned (analyze_document env "doc" st).1 = false.
Proof. vm_compute. repeat split. Qed.

(** C5, as the code has it.  If a construction-time dependency cannot be
    established (the model loader, the model, a parser, or the template
    named "document_analysis"), [DocumentAnalyzer()] raises and hands no
    instance to the caller.  When [log.error] takes its event, the error is
    [DocumentPortalException("Error in DocumentAnalyzer initialization")]
    with the failure of the dependency as its context; when [log.error]
    raises, the logger's error is raised instead. *)
Theorem construction_fails_without_dependency (env : Env) (st : State)
    (cause : Exn) :
  unavailable env cause ->
  returned (DocumentAnalyzer_new env st).1 = false ∧
  ∃ e, unavailable env e ∧
       match log_fault (GLOBAL_LOGGER env) (log st) (init_failure_event e) with
       | None =>
           (DocumentAnalyzer_new env st).1 =
             Raise (MkExn DocumentPortalException
                      "Error in DocumentAnalyzer initialization" None (Some e))
       | Some x =>
           (DocumentAnalyzer_new env st).1 =
             Raise (MkExn (exn_class x) (exn_message x) (exn_llm_output x)
                      (Some e))
       end.
Proof.
  intros Hu.
  destruct (init_body_unavailable env cause
              {| self := blank; log := log st; prompts := prompts st |} Hu)
    as (e & st1 & Hbody & He & Hlog).
  unfold DocumentAnalyzer_new. rewrite init_eq, Hbody, Hlog. simpl. split.
  - by destruct (log_fault _ _ _).
  - exists e. split; [done|]. by destruct (log_fault _ _ _).
Qed.

Lemma construction_fails_without_dependency_witness :
  let env := unregistered (constant report) reliable in
  (DocumentAnalyzer_new env start).1 =
    Raise (MkExn DocumentPortalException
             "Error in DocumentAnalyzer initialization" None
             (Some (MkExn KeyError "document_analysis" None None))).
Proof.
  intros env.
  destruct (construction_fails_without_dependency env start
              (MkExn KeyError "document_analysis" None None)
              (no_template env eq_refl)) as (_ & e & He & H).
  simpl in H. rewrite H.
  inversion He as [e' H1|ld e' H1 H2|e' H1|e' H1|H1]; subst;
    try discriminate; [|reflexivity].
  injection H1 as <-. discriminate H2.
Defined.

(** C5, as stated, fails: the registry lacks the template and the logger's
    sink is full; construction raises the logger's [OSError], whose context
    is the [KeyError], and not an error of the initialization class. *)
Lemma missing_template_can_raise_logger_error :
  let env := unregistered (constant report) (full_after 0) in
  PROMPT_REGISTRY env !! "document_analysis" = None ∧
  (DocumentAnalyzer_new env start).1 =
    Raise (MkExn (OtherException "OSError") "No space left on device" None
             (Some (MkExn KeyError "document_analysis" None None))).
Proof. vm_compute. repeat split. Qed.

(** C1, as the code has it.  On a constructed analyzer whose logger takes
    its events, a first completion that decodes to a schema-conformant value
    is returned as decoded, every field of it whether declared or not, after
    a single invocation of the generator: no repair prompt is sent. *)
Theorem fast_path_keeps_decoded_fields (env : Env) (o : DocumentAnalyzer)
    (st : State) (d : string) (t : PromptTemplate) (l : LLM)
    (q text : string) (v : pyval) :
  built env o -> self st = o -> prompt o = Some t -> llm o = Some l ->
  reliable_logger (GLOBAL_LOGGER env) ->
  format_prompt t (make_inputs (schema_instructions env (Metadata env)) d)
    = Return q ->
  generate l (prompts st) q = Return text ->
  json_decode env (py_strip text) = Some v ->
  schema_valid (Metadata env) v = true ->
  ∃ st', analyze_document env d st = (Return v, st') ∧
         prompts st' = prompts st ++ [q] ∧
         self st' = self st.
Proof.
  intros Hb Hself Ht Hl Hlog Hq Hg Hd Hv.
  destruct v as [| | | | |items]; try discriminate.
  eexists. split; [by eapply fast_path|]. done.
Qed.

Lemma fast_path_keeps_decoded_fields_witness :
  let l := constant report_extra in
  let st := constructed l reliable 1 in
  ∃ st', analyze_document (deployment l reliable 1) "doc" st
           = (Return report_extra_value, st') ∧
         prompts st' =
           prompts st ++
             ["Return ONLY valid JSON matching the schema. title: string, tags: array of string Analyze this document: doc"] ∧
         self st' = self st.
Proof.
  apply (fast_path_keeps_decoded_fields
           (deployment (constant report_extra) reliable 1)
           (self (constructed (constant report_extra) reliable 1))
           (constructed (constant report_extra) reliable 1)
           "doc" document_analysis (constant report_extra) _ report_extra).
  - exists start, (constructed (constant report_extra) reliable 1).
    vm_compute. reflexivity.
  - reflexivity.
  - reflexivity.
  - reflexivity.
  - intros history ev. reflexivity.
  - vm_compute. reflexivity.
  - reflexivity.
  - vm_compute. reflexivity.
  - vm_compute. reflexivity.
Defined.

(** C1, as stated, fails: the completion
    [{"title":"Report","tags":["a","b"],"extra":"x"}] conforms to the schema
    (a required [title], an optional [tags]); the call returns on the first
    attempt, and the result still holds the undeclared field [extra]. *)
Lemma extra_field_is_returned :
  let l := constant report_extra in
  let env := deployment l reliable 1 in
  let run := analyze_document env "doc" (constructed l reliable 1) in
  json_decode env report_extra = Some report_extra_value ∧
  schema_valid (Metadata env) report_extra_value = true ∧
  run.1 = Return report_extra_value ∧
  length (prompts run.2) = 1 ∧
  only_declared (Metadata env) report_extra_value = false ∧
  dict_get "extra" [ ("title", PStr "Report");
                     ("tags", PList [PStr "a"; PStr "b"]);
                     ("extra", PStr "x") ] = Some (PStr "x").
Proof. vm_compute. repeat split. Qed.

(** What a constructed analyzer returns is a mapping, the decoding of the
    completion that answered the last prompt served in the call. *)
Lemma returned_value_decodes_last (env : Env) (o : DocumentAnalyzer)
    (st st' : State) (d : string) (l : LLM) (r : pyval) :
  built env o -> self st = o -> llm o = Some l ->
  analyze_document env d st = (Return r, st') ->
  is_dict r = true ∧
  ∃ served p text,
    prompts st' = served ++ [p] ∧
    generate l served p = Return text ∧
    json_decode env (py_strip text) = Some r.
Proof.
  intros Hb Hself Hl Hrun.
  destruct (built_inv env o Hb) as (ld & l' & t & _ & _ & _ & _ & _ & ->).
  simpl in Hl. injection Hl as <-.
  assert (prompts st' = prompts (run_chain env d st).2) as Hps.
  { pose proof (prompts_after_run_chain env d st) as H.
    by rewrite Hrun in H. }
  rewrite analyze_document_eq, analyze_body_eq in Hrun.
  erewrite run_chain_eq in Hrun, Hps by (rewrite Hself; reflexivity).
  destruct (log_fault (GLOBAL_LOGGER env) (log st) started_event) as [x|].
  { by destruct (log_fault _ _ _). }
  unfold chain_invoke, OutputFixingParser_parse, mbind, M_bind, lift,
    invoke_llm in Hrun, Hps.
  destruct (format_prompt _ _) as [q|x]; simpl in Hrun, Hps.
  2: { by destruct (log_fault _ _ _). }
  destruct (generate l' (prompts st) q) as [text|x] eqn:Hg;
    simpl in Hrun, Hps.
  2: { by destruct (log_fault _ _ _). }
  destruct (fix_loop _ _ _ _ _) as [[v|x] st1] eqn:Hloop; simpl in Hrun, Hps.
  2: { by destruct (log_fault _ _ _). }
  assert (v = r ∧ is_dict r = true) as [-> Hdict].
  { destruct v as [| | | | |items]; simpl in Hrun;
      try (by destruct (log_fault _ _ _)).
    destruct (log_fault _ _ _); [by destruct (log_fault _ _ _)|].
    injection Hrun as <- _. done. }
  split; [done|]. rewrite Hps.
  exact (fix_loop_last env
           {| fp_parser := {| pydantic_object := Metadata env |};
              fp_llm := l'; fp_prompt := NAIVE_FIX_PROMPT;
              max_retries := default_max_retries env |}
           (default_max_retries env) text
           {| self := self st; log := log st ++ [started_event];
              prompts := prompts st ++ [q] |}
           (prompts st) q r st1 eq_refl Hg Hloop).
Qed.








(** C6. Against a deterministic generator, with a logger whose acceptance
    of an event does not depend on what it logged before, a second call with
    the same document text gives the outcome of the first, and so does a
    call from any other state of the log and of the generator: nothing a
    call leaves behind is observed by a later one. *)
Theorem analyze_document_idempotent (env : Env) (d : string) (st : State) :
  stateless_logger (GLOBAL_LOGGER env) ->
  (∀ l, llm (self st) = Some l -> deterministic l) ->
  (∀ fp, fixing_parser (self st) = Some fp -> deterministic (fp_llm fp)) ->
  let first := analyze_document env d st in
  let second := analyze_document env d first.2 in
  second.1 = first.1 ∧
  ∀ st', self st' = self st -> (analyze_document env d st').1 = first.1.
Proof.
  intros Hlog Hl Hfp. simpl. split.
  - apply analyze_document_blind; try done.
    apply analyze_document_same_self.
  - intros st' Hself. by apply analyze_document_blind.
Qed.

Lemma analyze_document_idempotent_witness :
  let l := constant report in
  let env := deployment l reliable 1 in
  let first := analyze_document env "doc" (constructed l reliable 1) in
  let second := analyze_document env "doc" first.2 in
  first.1 = Return report_value ∧ second.1 = first.1.
Proof.
  split; [vm_compute; reflexivity|].
  refine (proj1 (analyze_document_idempotent
                   (deployment (constant report) reliable 1) "doc"
                   (constructed (constant report) reliable 1) _ _ _)).
  - intros h h' ev. reflexivity.
  - intros l [= <-]. intros s s' p. reflexivity.
  - intros fp [= <-]. intros s s' p. reflexivity.
Defined.

(** C6, as stated, fails: the generator is deterministic, but the logger's
    sink holds three events; the first call returns the result and the
    second call, with the same document text, raises. *)
Lemma full_logger_breaks_idempotence :
  let l := constant report in
  let env := deployment l (full_after 3) 1 in
  let first := analyze_document env "doc" (constructed l (full_after 3) 1) in
  let second := analyze_document env "doc" first.2 in
  deterministic l ∧
  first.1 = Return report_value ∧
  returned second.1 = false ∧
  self first.2 = self (constructed l (full_after 3) 1).
Proof.
  split; [by intros served served' p|]. vm_compute. repeat split.
Qed.




(** ** Further properties of [__init__] *)

(** Construction succeeds when every dependency is at hand and the logger
    takes the one event: the caller receives an instance whose fixing parser
    repairs with the very model and parser of the instance, the parser is
    built on [Metadata], the prompt is the registry's entry, one [INFO] event
    is logged and the generator has not been invoked. *)
Theorem construction_wires_instance (env : Env) (st : State)
    (ld : ModelLoader) (l : LLM) (t : PromptTemplate) :
  ModelLoader_new env = Return ld -> load_llm ld = Return l ->
  JsonOutputParser_fault env = None -> from_llm_fault env = None ->
  PROMPT_REGISTRY env !! "document_analysis" = Some t ->
  log_fault (GLOBAL_LOGGER env) (log st) initialized_event = None ->
  DocumentAnalyzer_new env st =
    (Return (assembled env ld l t),
     {| self := assembled env ld l t; log := log st ++ [initialized_event];
        prompts := prompts st |}).
Proof.
  intros H1 H2 H3 H4 H5 Hlog.
  unfold DocumentAnalyzer_new, __init__, try_except.
  rewrite (init_body_assembles env _ ld l t H1 H2 H3 H4 H5).
  unfold emit. simpl. by rewrite Hlog.
Qed.

Lemma construction_wires_instance_witness :
  let l := constant report in
  let env := deployment l reliable 1 in
  let ld := {| load_llm := Return l |} in
  DocumentAnalyzer_new env start =
    (Return (assembled env ld l document_analysis),
     {| self := assembled env ld l document_analysis;
        log := [initialized_event]; prompts := [] |}).
Proof.
  apply (construction_wires_instance
           (deployment (constant report) reliable 1) start
           {| load_llm := Return (constant report) |}
           (constant report) document_analysis); reflexivity.
Defined.

(** [log.info("DocumentAnalyzer initialized successfully")] is inside the
    [try] block: when every dependency is at hand but the logger raises on
    that event, construction fails all the same and no instance reaches the
    caller; once [log.error] has taken its event, the error is the wrapper
    with the logger's error as its context. *)
Theorem construction_fails_on_logger_error (env : Env) (st : State)
    (ld : ModelLoader) (l : LLM) (t : PromptTemplate) (x : Exn) :
  ModelLoader_new env = Return ld -> load_llm ld = Return l ->
  JsonOutputParser_fault env = None -> from_llm_fault env = None ->
  PROMPT_REGISTRY env !! "document_analysis" = Some t ->
  log_fault (GLOBAL_LOGGER env) (log st) initialized_event = Some x ->
  returned (DocumentAnalyzer_new env st).1 = false ∧
  (log_fault (GLOBAL_LOGGER env) (log st) (init_failure_event x) = None ->
   DocumentAnalyzer_new env st =
     (Raise (MkExn DocumentPortalException
               "Error in DocumentAnalyzer initialization" None (Some x)),
      {| self := assembled env ld l t;
         log := log st ++ [init_failure_event x]; prompts := prompts st |})).
Proof.
  intros H1 H2 H3 H4 H5 Hlog.
  unfold DocumentAnalyzer_new. rewrite init_eq.
  rewrite (init_body_assembles env _ ld l t H1 H2 H3 H4 H5).
  unfold emit. simpl. rewrite Hlog. simpl.
  destruct (log_fault (GLOBAL_LOGGER env) (log st) (init_failure_event x));
    by split.
Qed.

Lemma construction_fails_on_logger_error_witness :
  let env := deployment (constant report) (full_after 0) 1 in
  returned (DocumentAnalyzer_new env start).1 = false.
Proof.
  refine (proj1 (construction_fails_on_logger_error
                   (deployment (constant report) (full_after 0) 1) start
                   {| load_llm := Return (constant report) |}
                   (constant report) document_analysis
                   (MkExn (OtherException "OSError")
                      "No space left on device" None None)
                   _ _ _ _ _ _)); reflexivity.
Defined.

(** A construction that fails for want of a dependency logs one [ERROR]
    event, whose message ends with [str(e)] of the failure, and nothing
    else; the generator is not invoked.  When the template is what is
    missing, [str(e)] is the name between apostrophes. *)
Theorem failed_construction_logs_cause (env : Env) (st : State) (cause : Exn) :
  unavailable env cause ->
  accepts_errors (GLOBAL_LOGGER env) ->
  ∃ e, unavailable env e ∧
       log (DocumentAnalyzer_new env st).2 =
         log st ++
           [ {| ev_level := ERROR;
                ev_message := "Error initializing DocumentAnalyzer: " +:+
                              str_exn e;
                ev_payload := [] |} ] ∧
       prompts (DocumentAnalyzer_new env st).2 = prompts st ∧
       (∀ ld l,
          ModelLoader_new env = Return ld -> load_llm ld = Return l ->
          JsonOutputParser_fault env = None -> from_llm_fault env = None ->
          str_exn e = "'document_analysis'").
Proof.
  intros Hu Hacc.
  destruct (init_body_unavailable env cause
              {| self := blank; log := log st; prompts := prompts st |} Hu)
    as (e & st1 & Hbody & He & Hlog).
  exists e. split; [done|].
  assert (prompts st1 = prompts st) as Hps.
  { change (prompts st) with
      (prompts {| self := blank; log := log st; prompts := prompts st |}).
    replace st1 with
      (init_body env {| self := blank; log := log st; prompts := prompts st |}).2
      by (by rewrite Hbody).
    clear. unfold init_body, JsonOutputParser_new, OutputFixingParser_from_llm,
      getitem, set_loader, set_llm, set_parser, set_fixing_parser, set_prompt,
      emit.
    unfold_m. simpl.
    destruct (ModelLoader_new env) as [ld|]; simpl; [|done].
    destruct (load_llm ld) as [l|]; simpl; [|done].
    destruct (JsonOutputParser_fault env); simpl; [done|].
    destruct (from_llm_fault env); simpl; [done|].
    destruct (PROMPT_REGISTRY env !! "document_analysis"); simpl; [|done].
    by destruct (log_fault _ _ _). }
  unfold DocumentAnalyzer_new. rewrite init_eq, Hbody.
  rewrite (Hacc (log st1) (init_failure_event e) eq_refl). simpl.
  rewrite Hlog, Hps. repeat split.
  intros ld l H1 H2 H3 H4. inversion He; subst; try congruence.
  reflexivity.
Qed.

Lemma failed_construction_logs_cause_witness :
  let env := unregistered (constant report) reliable in
  log (DocumentAnalyzer_new env start).2 =
    [ {| ev_level := ERROR;
         ev_message := "Error initializing DocumentAnalyzer: 'document_analysis'";
         ev_payload := [] |} ] ∧
  prompts (DocumentAnalyzer_new env start).2 = [].
Proof.
  intros env.
  destruct (failed_construction_logs_cause env start
              (MkExn KeyError "document_analysis" None None))
    as (e & _ & Hlog & Hps & Hstr).
  - apply no_template. reflexivity.
  - intros history ev _. reflexivity.
  - rewrite Hlog, Hps.
    rewrite (Hstr _ _ eq_refl eq_refl eq_refl eq_refl). split; reflexivity.
Defined.

(** ** Further properties of [analyze_document] *)



(** A failure of the generator is not retried.  When the first invocation
    raises, the fixing parser is never reached: the generator has been
    invoked once, the failure is logged, and the wrapper that is raised has
    the generator's error as its context. *)
Theorem generator_failure_is_not_retried (env : Env) (st : State) (d : string)
    (t : PromptTemplate) (l : LLM) (fp : OutputFixingParser)
    (p : JsonOutputParser) (q : string) (e : Exn) :
  prompt (self st) = Some t -> llm (self st) = Some l ->
  fixing_parser (self st) = Some fp -> parser (self st) = Some p ->
  reliable_logger (GLOBAL_LOGGER env) ->
  format_prompt t (make_inputs (get_format_instructions env p) d) = Return q ->
  generate l (prompts st) q = Raise e ->
  analyze_document env d st =
    (Raise (MkExn DocumentPortalException "Metadata extraction failed" None
              (Some e)),
     {| self := self st;
        log := log st ++ [started_event; failure_event e];
        prompts := prompts st ++ [q] |}).
Proof.
  intros Ht Hl Hfp Hp Hlog Hq Hg.
  rewrite analyze_document_eq, analyze_body_eq.
  rewrite (run_chain_eq env d st t l fp p Ht Hl Hfp Hp), Hlog.
  erewrite chain_invoke_eq by exact Hq. simpl. rewrite Hg, Hlog. simpl.
  by rewrite <- app_assoc.
Qed.

Lemma generator_failure_is_not_retried_witness :
  let l := scripted [] in
  let env := deployment l reliable 3 in
  let run := analyze_document env "doc" (constructed l reliable 3) in
  (∃ x, run.1 = Raise x ∧ exn_class x = DocumentPortalException) ∧
  length (prompts run.2) = 1.
Proof.
  intros l env run.
  pose proof (λ q Hq,
    generator_failure_is_not_retried env (constructed l reliable 3) "doc"
      document_analysis l
      {| fp_parser := {| pydantic_object := schema |}; fp_llm := l;
         fp_prompt := NAIVE_FIX_PROMPT; max_retries := 3 |}
      {| pydantic_object := schema |} q
      (MkExn (OtherException "TimeoutError") "timed out" None None)
      eq_refl eq_refl eq_refl eq_refl (λ _ _, eq_refl) Hq eq_refl) as H.
  specialize (H _ eq_refl).
  unfold run. rewrite H. split; [eexists; split; reflexivity|reflexivity].
Defined.

(** Whatever the generator answers, a call invokes it at most
    [max_retries + 1] times: once by the chain and once for each retry of
    the fixing parser. *)
Theorem generator_invocations_bounded (env : Env) (d : string) (st : State)
    (fp : OutputFixingParser) :
  fixing_parser (self st) = Some fp ->
  (length (prompts (analyze_document env d st).2)
     ≤ length (prompts st) + (max_retries fp + 1))%nat.
Proof.
  intros Hfp. rewrite prompts_after_run_chain. by apply run_chain_bound.
Qed.

Lemma generator_invocations_bounded_witness :
  let l := scripted [garbled; garbled; garbled; garbled; report] in
  let st := constructed l reliable 2 in
  (length (prompts
             (analyze_document (deployment l reliable 2) "doc" st).2)
     ≤ length (prompts st) + (2 + 1))%nat.
Proof.
  intros l st.
  apply (generator_invocations_bounded (deployment l reliable 2) "doc" st
           {| fp_parser := {| pydantic_object := schema |}; fp_llm := l;
              fp_prompt := NAIVE_FIX_PROMPT; max_retries := 2 |}).
  reflexivity.
Defined.

(** The mapping a call returns is the decoding of the last completion the
    generator produced in it: after a repair, the repaired text and not the
    original one. *)
Theorem result_decodes_last_completion (env : Env) (o : DocumentAnalyzer)
    (st st' : State) (d : string) (l : LLM) (r : pyval) :
  built env o -> self st = o -> llm o = Some l ->
  analyze_document env d st = (Return r, st') ->
  ∃ served p text,
    prompts st' = served ++ [p] ∧
    generate l served p = Return text ∧
    json_decode env (py_strip text) = Some r.
Proof.
  intros Hb Hself Hl Hrun.
  by destruct (returned_value_decodes_last env o st st' d l r Hb Hself Hl Hrun).
Qed.

Lemma result_decodes_last_completion_witness :
  let l := scripted [garbled; report] in
  let env := deployment l reliable 1 in
  let run := analyze_document env "doc" (constructed l reliable 1) in
  ∃ served p text,
    prompts run.2 = served ++ [p] ∧
    generate l served p = Return text ∧
    decode (py_strip text) = Some report_value.
Proof.
  intros l env run.
  apply (result_decodes_last_completion env
           (self (constructed l reliable 1)) (constructed l reliable 1)
           run.2 "doc" l report_value).
  - exists start, (constructed l reliable 1). vm_compute. reflexivity.
  - reflexivity.
  - reflexivity.
  - vm_compute. reflexivity.
Defined.

(** A call that returns has logged two events and no more: the start of the
    chain and the success event, whose payload lists the keys of the
    returned mapping in the order the mapping holds them.  No [ERROR] event
    is logged. *)
Theorem success_is_logged_with_keys (env : Env) (d : string) (st st' : State)
    (r : pyval) :
  analyze_document env d st = (Return r, st') ->
  ∃ items,
    r = PDict items ∧
    log st' = log st ++ [started_event; success_event items.*1] ∧
    ev_payload (success_event items.*1)
      = [("keys", PList (PStr <$> items.*1))].
Proof.
  rewrite analyze_document_eq, analyze_body_eq.
  pose proof (run_chain_log env d st) as Hlog.
  destruct (run_chain env d st) as [[v|e] st1]; simpl in Hlog.
  - destruct Hlog as [Hlog|(_ & _ & [=])].
    destruct v as [| | | | |items]; simpl;
      try (by destruct (log_fault _ _ _)).
    destruct (log_fault _ _ _) as [x|].
    + by destruct (log_fault _ _ _).
    + intros [= <- <-]. exists items. simpl. rewrite Hlog.
      by rewrite <- app_assoc.
  - by destruct (log_fault _ _ _).
Qed.

Lemma success_is_logged_with_keys_witness :
  let l := constant report_extra in
  let env := deployment l reliable 1 in
  let st := constructed l reliable 1 in
  ∃ items,
    report_extra_value = PDict items ∧
    log (analyze_document env "doc" st).2
      = log st ++ [started_event; success_event items.*1] ∧
    ev_payload (success_event items.*1)
      = [("keys", PList (PStr <$> items.*1))].
Proof.
  intros l env st.
  apply (success_is_logged_with_keys env "doc" st
           (analyze_document env "doc" st).2 report_extra_value).
  vm_compute. reflexivity.
Defined.

(** When [log.error] itself raises inside the [except] block, what leaves
    [analyze_document] is the logger's error, with its own class and message
    and not those of [DocumentPortalException]; its context is the original
    error, and no failure event has been logged. *)
Theorem logger_failure_in_handler_escapes (env : Env) (d : string)
    (st st1 : State) (e x : Exn) :
  analyze_body env d st = (Raise e, st1) ->
  log_fault (GLOBAL_LOGGER env) (log st1) (failure_event e) = Some x ->
  analyze_document env d st =
    (Raise (MkExn (exn_class x) (exn_message x) (exn_llm_output x) (Some e)),
     st1).
Proof.
  intros Hbody Hlog. by rewrite analyze_document_eq, Hbody, Hlog.
Qed.

Lemma logger_failure_in_handler_escapes_witness :
  let l := scripted [] in
  let env := deployment l (full_after 2) 1 in
  let st := constructed l (full_after 2) 1 in
  analyze_document env "doc" st =
    (Raise (MkExn (OtherException "OSError") "No space left on device" None
              (Some (MkExn (OtherException "TimeoutError") "timed out" None
                       None))),
     (analyze_body env "doc" st).2).
Proof.
  intros l env st.
  apply (logger_failure_in_handler_escapes env "doc" st
           (analyze_body env "doc" st).2
           (MkExn (OtherException "TimeoutError") "timed out" None None)
           (MkExn (OtherException "OSError") "No space left on device"
              None None)).
  - vm_compute. reflexivity.
  - reflexivity.
Defined.

(** A prompt that does not render stops the call before the generator: no
    prompt is served, nothing is returned, and once [log.error] has taken
    its event the wrapper carries the rendering error as its context. *)
Theorem rendering_failure_skips_generator (env : Env) (st : State)
    (d : string) (t : PromptTemplate) (l : LLM) (fp : OutputFixingParser)
    (p : JsonOutputParser) (e : Exn) :
  prompt (self st) = Some t -> llm (self st) = Some l ->
  fixing_parser (self st) = Some fp -> parser (self st) = Some p ->
  log_fault (GLOBAL_LOGGER env) (log st) started_event = None ->
  format_prompt t (make_inputs (get_format_instructions env p) d) = Raise e ->
  prompts (analyze_document env d st).2 = prompts st ∧
  returned (analyze_document env d st).1 = false ∧
  (log_fault (GLOBAL_LOGGER env) (log st ++ [started_event]) (failure_event e)
     = None ->
   (analyze_document env d st).1 =
     Raise (MkExn DocumentPortalException "Metadata extraction failed" None
              (Some e))).
Proof.
  intros Ht Hl Hfp Hp Hlog Hq.
  rewrite analyze_document_eq, analyze_body_eq.
  rewrite (run_chain_eq env d st t l fp p Ht Hl Hfp Hp), Hlog.
  unfold chain_invoke, mbind, M_bind, lift. simpl. rewrite Hq. simpl.
  destruct (log_fault (GLOBAL_LOGGER env) (log st ++ [started_event])
              (failure_event e)); repeat split; try done.
Qed.

Lemma rendering_failure_skips_generator_witness :
  let l := constant report in
  let env := deployment l reliable 1 in
  let st :=
    {| self :=
         {| loader := Some {| load_llm := Return l |}; llm := Some l;
            parser := Some {| pydantic_object := schema |};
            fixing_parser :=
              Some {| fp_parser := {| pydantic_object := schema |};
                      fp_llm := l; fp_prompt := NAIVE_FIX_PROMPT;
                      max_retries := 1 |};
            prompt := Some [Var "document_text"; Lit " in "; Var "language"] |};
       log := []; prompts := [] |} in
  prompts (analyze_document env "doc" st).2 = [] ∧
  returned (analyze_document env "doc" st).1 = false.
Proof.
  intros l env st.
  destruct (rendering_failure_skips_generator env st "doc"
              [Var "document_text"; Lit " in "; Var "language"] l
              {| fp_parser := {| pydantic_object := schema |};
                 fp_llm := l; fp_prompt := NAIVE_FIX_PROMPT;
                 max_retries := 1 |}
              {| pydantic_object := schema |}
              (MkExn KeyError "language" None None))
    as (H1 & H2 & _); try reflexivity.
  by split.
Defined.

(** When the logger raises on the start event, the chain is not invoked:
    the generator serves no prompt and the call raises. *)
Theorem logger_failure_at_start_skips_generator (env : Env) (st : State)
    (d : string) (t : PromptTemplate) (l : LLM) (fp : OutputFixingParser)
    (x : Exn) :
  prompt (self st) = Some t -> llm (self st) = Some l ->
  fixing_parser (self st) = Some fp ->
  log_fault (GLOBAL_LOGGER env) (log st) started_event = Some x ->
  prompts (analyze_document env d st).2 = prompts st ∧
  returned (analyze_document env d st).1 = false ∧
  (log_fault (GLOBAL_LOGGER env) (log st) (failure_event x) = None ->
   (analyze_document env d st).1 =
     Raise (MkExn DocumentPortalException "Metadata extraction failed" None
              (Some x))).
Proof.
  intros Ht Hl Hfp Hlog.
  rewrite analyze_document_eq, analyze_body_eq.
  unfold run_chain, mbind, M_bind, getattr, emit.
  rewrite Ht. simpl. rewrite Hl. simpl. rewrite Hfp. simpl. rewrite Hlog.
  simpl.
  destruct (log_fault (GLOBAL_LOGGER env) (log st) (failure_event x));
    repeat split; try done.
Qed.

Lemma logger_failure_at_start_skips_generator_witness :
  let l := constant report in
  let env := deployment l (full_after 1) 1 in
  let st := constructed l (full_after 1) 1 in
  prompts (analyze_document env "doc" st).2 = prompts st ∧
  returned (analyze_document env "doc" st).1 = false.
Proof.
  intros l env st.
  destruct (logger_failure_at_start_skips_generator env st "doc"
              document_analysis l
              {| fp_parser := {| pydantic_object := schema |};
                 fp_llm := l; fp_prompt := NAIVE_FIX_PROMPT;
                 max_retries := 1 |}
              (MkExn (OtherException "OSError") "No space left on device"
                 None None))
    as (H1 & H2 & _); try reflexivity.
  by split.
Defined.

(** The log only grows, by at most two events a call: earlier events are
    neither removed nor rewritten. *)
Theorem call_appends_at_most_two_events (env : Env) (d : string) (st : State) :
  ∃ events,
    log (analyze_document env d st).2 = log st ++ events ∧
    (length events ≤ 2)%nat.
Proof.
  rewrite analyze_document_eq, analyze_body_eq.
  pose proof (run_chain_log env d st) as Hlog.
  destruct (run_chain env d st) as [[v|e] st1]; simpl in Hlog.
  - destruct Hlog as [Hlog|(_ & _ & [=])].
    destruct (py_keys v) as [keys|e].
    + destruct (log_fault _ _ (success_event keys)) as [x|]; simpl.
      * destruct (log_fault _ _ (failure_event x)); simpl; rewrite Hlog.
        -- exists [started_event]. split; [done|simpl; lia].
        -- exists [started_event; failure_event x].
           split; [by rewrite <- app_assoc|simpl; lia].
      * rewrite Hlog. exists [started_event; success_event keys].
        split; [by rewrite <- app_assoc|simpl; lia].
    + destruct (log_fault _ _ (failure_event e)); simpl; rewrite Hlog.
      * exists [started_event]. split; [done|simpl; lia].
      * exists [started_event; failure_event e].
        split; [by rewrite <- app_assoc|simpl; lia].
  - destruct (log_fault _ _ (failure_event e)); simpl;
      destruct Hlog as [Hlog|(Hlog & _)]; rewrite Hlog.
    + exists [started_event]. split; [done|simpl; lia].
    + exists []. split; [by rewrite app_nil_r|simpl; lia].
    + exists [started_event; failure_event e].
      split; [by rewrite <- app_assoc|simpl; lia].
    + exists [failure_event e]. split; [done|simpl; lia].
Qed.
